(** * Compound Components example: PostCardComponent, its leaves and the
      usePostCardContext guard, with the AntiPostCard counter-example.

    The development embeds
      - componets/PostCardComponent.tsx  (provider and the five leaves),
      - hooks/usePostCardContext.ts      (the usage guard),
      - anti-components/AntiPostCard.tsx (the flag-driven counter-example),
    over a small model of React elements: an element is text, a number,
    null, a boolean, a host element, a [PostCardContext.Provider] or a
    function component that React calls at render time with the value of
    the nearest enclosing provider. *)

From Stdlib Require Import String ZArith List Bool DecimalString Permutation.
Import ListNotations.
Open Scope string_scope.
Open Scope list_scope.

Scheme All for list.

(** ** Thrown errors *)

(** [new Error(message)]. *)
Inductive exn : Type :=
| Error (message : string).

(** A computation that either returns or throws. *)
Inductive result (A : Type) : Type :=
| Ok (a : A)
| Throw (e : exn).
Arguments Ok {A} a.
Arguments Throw {A} e.

Scheme All for result.

Definition bind {A B : Type} (r : result A) (k : A -> result B) : result B :=
  match r with
  | Ok a => k a
  | Throw e => Throw e
  end.

Notation "x <- r ;; k" := (bind r (fun x => k))
  (at level 61, r at next level, right associativity).

(** ** Data model *)

(** [user: { id: number, name: string }]. *)
Record User : Type := mkUser {
  user_id : Z;
  name : string
}.

(** [PostCardProps].  The [number] identifiers are integers, as in every
    page of the repository; the optional [isOnProfilePage?: boolean] is
    [None] when the caller omits it. *)
Record PostCardProps : Type := mkPost {
  id : Z;
  title : string;
  content : string;
  user : User;
  isOnProfilePage : option bool
}.

(** [PostCardContextType = { post: PostCardProps }]. *)
Record PostCardContextType : Type := mkContext {
  post : PostCardProps
}.

(** [AntiPostCardProps]: the same fields (prefixed here, the two records
    sharing one name space) and the required [shouldDisplayButtons: boolean]. *)
Record AntiPostCardProps : Type := mkAntiPost {
  anti_id : Z;
  anti_title : string;
  anti_content : string;
  anti_user : User;
  anti_isOnProfilePage : option bool;
  shouldDisplayButtons : bool
}.

(** A value of the context, [PostCardContextType | undefined]. *)
Definition ContextValue : Type := option PostCardContextType.

(** [PostCardContext = React.createContext(undefined)]: the context is
    known by its default value, read where no provider is above. *)
Definition PostCardContext : ContextValue := None.

(** ** React elements and their rendering *)

Inductive Element : Type :=
| EText (s : string)
| ENum (n : Z)
| ENull
| EBool (b : bool)
| EHost (tag className : string) (children : list Element)
| EProvider (value : ContextValue) (children : list Element)
| EComp (type : ContextValue -> result Element).

(** What ends up in the document: host elements, text and numbers. *)
Inductive DOM : Type :=
| DText (s : string)
| DNum (n : Z)
| DHost (tag className : string) (children : list DOM).

(** One render pass under the context value [ctx] of the nearest enclosing
    provider.  [null] and booleans render nothing; a provider replaces the
    context value for its children; a function component is called and what
    it returns is rendered in the same context; children render in order
    and the first throw aborts the pass. *)
Fixpoint render (ctx : ContextValue) (e : Element) {struct e}
  : result (list DOM) :=
  match e with
  | EText s => Ok [DText s]
  | ENum n => Ok [DNum n]
  | ENull => Ok []
  | EBool _ => Ok []
  | EHost tag cls children =>
      kids <- (fix render_children (es : list Element) : result (list DOM) :=
                 match es with
                 | [] => Ok []
                 | x :: xs =>
                     o <- render ctx x ;;
                     os <- render_children xs ;;
                     Ok (o ++ os)
                 end) children ;;
      Ok [DHost tag cls kids]
  | EProvider value children =>
      (fix render_children (es : list Element) : result (list DOM) :=
         match es with
         | [] => Ok []
         | x :: xs =>
             o <- render value x ;;
             os <- render_children xs ;;
             Ok (o ++ os)
         end) children
  | EComp type =>
      match type ctx with
      | Ok e' => render ctx e'
      | Throw x => Throw x
      end
  end.

(** The children of one parent, rendered in order under one context. *)
Fixpoint render_list (ctx : ContextValue) (es : list Element)
  : result (list DOM) :=
  match es with
  | [] => Ok []
  | x :: xs =>
      o <- render ctx x ;;
      os <- render_list ctx xs ;;
      Ok (o ++ os)
  end.

(** [React.useContext(PostCardContext)]: the value of the nearest enclosing
    provider, or the default when there is none. *)
Definition useContext (ctx : ContextValue) : ContextValue := ctx.

(** JavaScript truthiness of an optional boolean: [undefined] and [false]
    are falsy. *)
Definition truthy (b : option bool) : bool :=
  match b with
  | Some true => true
  | _ => false
  end.

(** [a && e] on a boolean [a]: the value is [a] itself when it is false. *)
Definition js_and (a : bool) (e : Element) : Element :=
  if a then e else EBool a.

(** ** hooks/usePostCardContext *)

Definition usePostCardContext (ctx : ContextValue) : result PostCardContextType :=
  let context := useContext ctx in
  match context with
  | None =>
      Throw (Error "PostCardComponent.Title must be used within a PostCardComponent")
  | Some c => Ok c
  end.

(** ** componets/PostCardComponent.tsx *)

Definition Component : Type := ContextValue -> result Element.

Definition PostCardComponent (children : list Element) (post : PostCardProps)
  : Component := fun _ =>
  Ok (EProvider (Some {| post := post |})
        [EHost "div" "w-full bg-white rounded-lg shadow-md hover:shadow-lg transition-shadow duration-300 overflow-hidden border border-gray-300"
           children]).

Definition PostCardId : Component := fun ctx =>
  c <- usePostCardContext ctx ;;
  Ok (EHost "div" "bg-gray-200 h-32 flex items-center justify-center"
        [EHost "span" "text-black font-bold text-center block"
           [ENum (id (post c))]]).

Definition PostCardTitle : Component := fun ctx =>
  c <- usePostCardContext ctx ;;
  Ok (EHost "h2" "text-2xl font-bold text-black mb-2" [EText (title (post c))]).

Definition PostCardContent : Component := fun ctx =>
  c <- usePostCardContext ctx ;;
  Ok (EHost "p" "text-gray-700 text-sm mb-4 leading-relaxed"
        [EText (content (post c))]).

Definition PostCardAuthor : Component := fun ctx =>
  c <- usePostCardContext ctx ;;
  if truthy (isOnProfilePage (post c)) then Ok ENull
  else
    Ok (EHost "p" "text-xs text-gray-600 font-medium mb-6"
          [EText "By ";
           EHost "span" "font-semibold text-black" [EText (name (user (post c)))]]).

Definition PostCardActions : Component := fun _ =>
  Ok (EHost "div" "flex gap-3"
        [EHost "button" "flex-1 bg-black text-white px-4 py-2 rounded-md font-medium hover:bg-gray-800 transition-colors duration-200"
           [EText "Read More"];
         EHost "button" "flex-1 border-2 border-black text-black px-4 py-2 rounded-md font-medium hover:bg-gray-100 transition-colors duration-200"
           [EText "Like"]]).

(** ** anti-components/AntiPostCard.tsx *)

Definition AntiPostCard (post : AntiPostCardProps) : Component := fun _ =>
  Ok (EHost "div" "w-full bg-white rounded-lg shadow-md hover:shadow-lg transition-shadow duration-300 overflow-hidden border border-gray-300"
        [EHost "div" "bg-gray-200 h-32 flex items-center justify-center"
           [EHost "span" "text-black font-bold text-center block"
              [ENum (anti_id post)]];
         EHost "div" "p-6"
           [EHost "h2" "text-2xl font-bold text-black mb-2"
              [EText (anti_title post)];
            EHost "p" "text-gray-700 text-sm mb-4 leading-relaxed"
              [EText (anti_content post)];
            js_and (negb (truthy (anti_isOnProfilePage post)))
              (EHost "p" "text-xs text-gray-600 font-medium mb-6"
                 [EText "By ";
                  EHost "span" "font-semibold text-black"
                    [EText (name (anti_user post))]]);
            js_and (shouldDisplayButtons post)
              (EHost "div" "flex gap-3"
                 [EHost "button" "flex-1 bg-black text-white px-4 py-2 rounded-md font-medium hover:bg-gray-800 transition-colors duration-200"
                    [EText "Read More"];
                  EHost "button" "flex-1 border-2 border-black text-black px-4 py-2 rounded-md font-medium hover:bg-gray-100 transition-colors duration-200"
                    [EText "Like"]])]]).

(** ** Pages composed from the components *)

(** The named sub-components hung on [PostCardComponent]. *)
Inductive Leaf : Type := Id | Title | Content | Author | Actions.

Definition leaf (l : Leaf) : Component :=
  match l with
  | Id => PostCardId
  | Title => PostCardTitle
  | Content => PostCardContent
  | Author => PostCardAuthor
  | Actions => PostCardActions
  end.

(** The leaves that call [usePostCardContext]. *)
Definition reads_context (l : Leaf) : bool :=
  match l with
  | Actions => false
  | _ => true
  end.

(** What a page can be written with: text, host markup, the leaves,
    [<PostCardComponent post=...>children</PostCardComponent>] and
    [<AntiPostCard post=... />]. *)
Inductive Markup : Type :=
| MText (s : string)
| MHost (tag className : string) (children : list Markup)
| MLeaf (l : Leaf)
| MCard (post : PostCardProps) (children : list Markup)
| MAnti (post : AntiPostCardProps).

(** The React element a piece of markup stands for. *)
Fixpoint jsx (m : Markup) : Element :=
  match m with
  | MText s => EText s
  | MHost tag cls children => EHost tag cls (map jsx children)
  | MLeaf l => EComp (leaf l)
  | MCard post children => EComp (PostCardComponent (map jsx children) post)
  | MAnti post => EComp (AntiPostCard post)
  end.

(** Rendering a page at the root: no provider is above it. *)
Definition render_page (m : Markup) : result (list DOM) :=
  render PostCardContext (jsx m).

(** ** Observing the document *)

(** A number child as the text React DOM writes for it (decimal, for the
    integers used as identifiers). *)
Definition number_text (n : Z) : string :=
  NilZero.string_of_int (Z.to_int n).

(** [textContent] of a node. *)
Fixpoint textContent (d : DOM) : string :=
  match d with
  | DText s => s
  | DNum n => number_text n
  | DHost _ _ children =>
      (fix texts (ds : list DOM) : string :=
         match ds with
         | [] => ""
         | x :: xs => textContent x ++ texts xs
         end)%string children
  end.

(** The children of the single root node of a rendered card. *)
Definition root_children (out : list DOM) : list DOM :=
  match out with
  | [DHost _ _ children] => children
  | _ => []
  end.

Fixpoint DOM_eqb (a b : DOM) {struct a} : bool :=
  match a, b with
  | DText s, DText t => String.eqb s t
  | DNum n, DNum m => Z.eqb n m
  | DHost tag cls children, DHost tag' cls' children' =>
      String.eqb tag tag' && String.eqb cls cls' &&
      (fix all_eqb (xs ys : list DOM) {struct xs} : bool :=
         match xs, ys with
         | [], [] => true
         | x :: xs', y :: ys' => DOM_eqb x y && all_eqb xs' ys'
         | _, _ => false
         end) children children'
  | _, _ => false
  end.

(** [occurs x d]: the node [x] is [d] or one of its descendants. *)
Fixpoint occurs (x d : DOM) {struct d} : bool :=
  DOM_eqb x d ||
  match d with
  | DHost _ _ children =>
      (fix any (ds : list DOM) : bool :=
         match ds with
         | [] => false
         | y :: ys => occurs x y || any ys
         end) children
  | _ => false
  end.

Definition occurs_in (x : DOM) (out : list DOM) : bool :=
  existsb (occurs x) out.


(** [shown x r]: the pass [r] returned and [x] is in the document. *)
Definition shown (x : DOM) (r : result (list DOM)) : bool :=
  match r with
  | Ok out => occurs_in x out
  | Throw _ => false
  end.

(** ** The fragments as the specification tabulates them *)

(** The root [div] every card draws around its children. *)
Definition spec_card (children : list DOM) : DOM :=
  DHost "div" "w-full bg-white rounded-lg shadow-md hover:shadow-lg transition-shadow duration-300 overflow-hidden border border-gray-300"
    children.

(** The line "By {author display name}". *)
Definition spec_author_line (u : User) : DOM :=
  DHost "p" "text-xs text-gray-600 font-medium mb-6"
    [DText "By "; DHost "span" "font-semibold text-black" [DText (name u)]].

Definition spec_read_more : DOM :=
  DHost "button" "flex-1 bg-black text-white px-4 py-2 rounded-md font-medium hover:bg-gray-800 transition-colors duration-200"
    [DText "Read More"].

Definition spec_like : DOM :=
  DHost "button" "flex-1 border-2 border-black text-black px-4 py-2 rounded-md font-medium hover:bg-gray-100 transition-colors duration-200"
    [DText "Like"].

(** The two static action affordances. *)
Definition spec_actions : DOM :=
  DHost "div" "flex gap-3" [spec_read_more; spec_like].

Definition spec_id_block (n : Z) : DOM :=
  DHost "div" "bg-gray-200 h-32 flex items-center justify-center"
    [DHost "span" "text-black font-bold text-center block" [DNum n]].

Definition spec_title_line (t : string) : DOM :=
  DHost "h2" "text-2xl font-bold text-black mb-2" [DText t].

Definition spec_body_text (b : string) : DOM :=
  DHost "p" "text-gray-700 text-sm mb-4 leading-relaxed" [DText b].

(** Specification, section 4.3: what each leaf draws from the record [R]
    of its provider, the author line being suppressed when the
    display-context flag is true. *)
Definition spec_fragment (R : PostCardProps) (l : Leaf) : list DOM :=
  match l with
  | Id => [spec_id_block (id R)]
  | Title => [spec_title_line (title R)]
  | Content => [spec_body_text (content R)]
  | Author =>
      if truthy (isOnProfilePage R) then [] else [spec_author_line (user R)]
  | Actions => [spec_actions]
  end.

(** The flag-driven card: every section is always drawn except the author
    line and the buttons, each behind its own flag. *)
Definition spec_anti (p : AntiPostCardProps) : DOM :=
  spec_card
    [spec_id_block (anti_id p);
     DHost "div" "p-6"
       ([spec_title_line (anti_title p); spec_body_text (anti_content p)]
        ++ (if truthy (anti_isOnProfilePage p) then []
            else [spec_author_line (anti_user p)])
        ++ (if shouldDisplayButtons p then [spec_actions] else []))].

(** The children of a card under record [R], as the specification has
    them: other markup stays as the caller wrote it, each leaf is replaced
    by its own fragment of [R], a nested card switches to its own record. *)
Fixpoint spec_fill (R : PostCardProps) (m : Markup) : list DOM :=
  match m with
  | MText s => [DText s]
  | MHost tag cls children => [DHost tag cls (flat_map (spec_fill R) children)]
  | MLeaf l => spec_fragment R l
  | MCard R' children => [spec_card (flat_map (spec_fill R') children)]
  | MAnti p => [spec_anti p]
  end.

(** [outside m]: some leaf that calls the guard stands in [m] with no card
    around it. *)
Fixpoint outside (m : Markup) : bool :=
  match m with
  | MText _ => false
  | MHost _ _ children => existsb outside children
  | MLeaf l => reads_context l
  | MCard _ _ => false
  | MAnti _ => false
  end.

(** The texts of the nodes under the root node of a rendered tree, in
    document order. *)
Definition fragment_texts (r : result (list DOM)) : list string :=
  match r with
  | Ok out => map textContent (root_children out)
  | Throw _ => []
  end.

(** Whether the flag-driven card shows its author line, and its two
    buttons. *)
Definition author_shown (p : AntiPostCardProps) : bool :=
  shown (spec_author_line (anti_user p)) (render_page (MAnti p)).

Definition buttons_shown (p : AntiPostCardProps) : bool :=
  shown spec_read_more (render_page (MAnti p)) &&
  shown spec_like (render_page (MAnti p)).

Definition with_isOnProfilePage (f : option bool) (p : AntiPostCardProps)
  : AntiPostCardProps :=
  mkAntiPost (anti_id p) (anti_title p) (anti_content p) (anti_user p)
    f (shouldDisplayButtons p).

Definition with_shouldDisplayButtons (b : bool) (p : AntiPostCardProps)
  : AntiPostCardProps :=
  mkAntiPost (anti_id p) (anti_title p) (anti_content p) (anti_user p)
    (anti_isOnProfilePage p) b.

(** ** The page of the example application *)

Definition App : Markup :=
  MHost "div" "min-h-screen bg-white flex flex-col items-center justify-center p-8"
    [MHost "div" "text-center mb-12"
       [MHost "h1" "text-5xl font-bold text-black mb-2 text-center"
          [MText "Compound Components"]];
     MHost "div" "w-full max-w-4xl flex gap-6"
       [MHost "div" "w-full max-w-md"
          [MAnti (mkAntiPost 1 "Anti Design Pattern Component 1"
                    "This demonstrates an anti-pattern approach to component composition. Learn why this pattern should be avoided in favor of compound components."
                    (mkUser 1 "Amin Tai") (Some false) false)];
        MHost "div" "w-full max-w-md"
          [MAnti (mkAntiPost 2 "Anti Design Pattern Component 2"
                    "This demonstrates an anti-pattern approach to component composition. Learn why this pattern should be avoided in favor of compound components."
                    (mkUser 2 "Amin Tai") (Some true) true)]];
     MHost "div" "w-full max-w-md" [];
     MHost "div" "w-full max-w-4xl flex gap-6 mt-10"
       [MHost "div" "w-full max-w-md"
          [MCard (mkPost 3 "Compound Components Pattern Component 1"
                    "The recommended approach using compound components pattern. This provides better composition, flexibility, and separation of concerns for building reusable UI components."
                    (mkUser 3 "Amin Tai") (Some false))
             [MLeaf Id;
              MHost "div" "p-6" [MLeaf Title; MLeaf Content; MLeaf Actions]]];
        MHost "div" "w-full max-w-md"
          [MCard (mkPost 4 "Compound Components Pattern Component 2"
                    "The recommended approach using compound components pattern. This provides better composition, flexibility, and separation of concerns for building reusable UI components."
                    (mkUser 4 "Amin Tai") (Some false))
             [MLeaf Id;
              MHost "div" "p-6" [MLeaf Title; MLeaf Content; MLeaf Author]]]]].

(** ** Callers of the components *)

(** A component of the caller's own that reads the card through the hook
    and draws [k] of what it reads. *)
Definition consumer (k : PostCardContextType -> Element) : Component :=
  fun ctx =>
  c <- usePostCardContext ctx ;;
  Ok (k c).

(** The arrangement the example pages give a card: the identifier, then a
    padded block with the title, the content, the author and, when
    [buttons] is set, the actions. *)
Definition full_card (R : PostCardProps) (buttons : bool) : Markup :=
  MCard R
    [MLeaf Id;
     MHost "div" "p-6"
       ([MLeaf Title; MLeaf Content; MLeaf Author]
        ++ (if buttons then [MLeaf Actions] else []))].

(** The record a caller hands the flag-driven card for the same post. *)
Definition as_anti_post (R : PostCardProps) (buttons : bool)
  : AntiPostCardProps :=
  mkAntiPost (id R) (title R) (content R) (user R) (isOnProfilePage R) buttons.

Definition Leaf_eqb (a b : Leaf) : bool :=
  match a, b with
  | Id, Id | Title, Title | Content, Content
  | Author, Author | Actions, Actions => true
  | _, _ => false
  end.

(** [includes l ls]: the caller put the leaf [l] among [ls]. *)
Definition includes (l : Leaf) (ls : list Leaf) : bool :=
  existsb (Leaf_eqb l) ls.


(** * Properties *)

Section Rendering.

Lemma append_empty_r (s : string) : (s ++ "")%string = s.
Proof. induction s as [|a s IH]; simpl; [reflexivity|now rewrite IH]. Qed.

Lemma bind_Ok {A B : Type} (a : A) (k : A -> result B) :
  bind (Ok a) k = k a.
Proof. reflexivity. Qed.

Lemma render_EHost ctx tag cls children :
  render ctx (EHost tag cls children) =
  kids <- render_list ctx children ;; Ok [DHost tag cls kids].
Proof.
  simpl. f_equal.
  induction children as [|x xs IH]; simpl; [reflexivity|].
  now rewrite IH.
Qed.

Lemma render_EProvider ctx value children :
  render ctx (EProvider value children) = render_list value children.
Proof.
  simpl.
  induction children as [|x xs IH]; simpl; [reflexivity|].
  now rewrite IH.
Qed.

Lemma render_EComp ctx (type : Component) :
  render ctx (EComp type) = e <- type ctx ;; render ctx e.
Proof. simpl. destruct (type ctx); reflexivity. Qed.

Lemma render_list_app ctx es fs :
  render_list ctx (es ++ fs) =
  a <- render_list ctx es ;; b <- render_list ctx fs ;; Ok (a ++ b).
Proof.
  induction es as [|x xs IH]; simpl.
  - destruct (render_list ctx fs); reflexivity.
  - destruct (render ctx x) as [o|]; simpl; [|reflexivity].
    rewrite IH.
    destruct (render_list ctx xs) as [a|]; simpl; [|reflexivity].
    destruct (render_list ctx fs) as [b|]; simpl; [|reflexivity].
    now rewrite app_assoc.
Qed.

Lemma render_list_one ctx e :
  render_list ctx [e] = render ctx e.
Proof.
  change (render_list ctx [e]) with (o <- render ctx e ;; Ok (o ++ [])).
  destruct (render ctx e) as [o|]; simpl; [|reflexivity].
  now rewrite app_nil_r.
Qed.

(** What a leaf draws under a provider of [R]. *)
Lemma leaf_inside R l :
  render (Some {| post := R |}) (EComp (leaf l)) = Ok (spec_fragment R l).
Proof.
  destruct l; try reflexivity.
  rewrite render_EComp.
  unfold leaf, PostCardAuthor, usePostCardContext, useContext, spec_fragment.
  rewrite bind_Ok. simpl post.
  destruct (truthy (isOnProfilePage R)); reflexivity.
Qed.

Lemma render_leaf_inside R l :
  render (Some {| post := R |}) (jsx (MLeaf l)) = Ok (spec_fragment R l).
Proof. exact (leaf_inside R l). Qed.

(** What a leaf does with no provider above it. *)
Lemma leaf_outside l :
  render None (EComp (leaf l)) =
  if reads_context l
  then Throw (Error "PostCardComponent.Title must be used within a PostCardComponent")
  else Ok [spec_actions].
Proof. destruct l; reflexivity. Qed.

Lemma AntiPostCard_render ctx p :
  render ctx (EComp (AntiPostCard p)) = Ok [spec_anti p].
Proof.
  destruct p as [i t c u [[|]|] [|]]; reflexivity.
Qed.

Lemma PostCardComponent_render ctx children R :
  render ctx (EComp (PostCardComponent children R)) =
  kids <- render_list (Some {| post := R |}) children ;; Ok [spec_card kids].
Proof.
  rewrite render_EComp. unfold PostCardComponent. rewrite bind_Ok.
  rewrite render_EProvider, render_list_one, render_EHost.
  destruct (render_list _ children); reflexivity.
Qed.

(** Under a provider nothing throws, and the document is the caller's
    markup with every leaf replaced by its fragment. *)
Lemma render_inside m :
  forall R, render (Some {| post := R |}) (jsx m) = Ok (spec_fill R m).
Proof.
  induction m as [s|tag cls children IH|l|R' children IH|p]; intro R.
  - reflexivity.
  - simpl jsx. rewrite render_EHost.
    assert (H : render_list (Some {| post := R |}) (map jsx children)
                = Ok (flat_map (spec_fill R) children)).
    { induction IH as [|a Pa l _ IHl]; simpl; [reflexivity|].
      rewrite Pa, IHl. reflexivity. }
    rewrite H. reflexivity.
  - apply leaf_inside.
  - simpl jsx. rewrite PostCardComponent_render.
    assert (H : render_list (Some {| post := R' |}) (map jsx children)
                = Ok (flat_map (spec_fill R') children)).
    { induction IH as [|a Pa l _ IHl]; simpl; [reflexivity|].
      rewrite Pa, IHl. reflexivity. }
    rewrite H. reflexivity.
  - simpl jsx. rewrite AntiPostCard_render. reflexivity.
Qed.

(** With no provider above, a page throws the guard's error exactly when a
    guard-calling leaf stands outside every card. *)
Lemma render_outside m :
  forall R0,
    render None (jsx m) =
    if outside m
    then Throw (Error "PostCardComponent.Title must be used within a PostCardComponent")
    else Ok (spec_fill R0 m).
Proof.
  induction m as [s|tag cls children IH|l|R' children IH|p]; intro R0.
  - reflexivity.
  - simpl jsx. rewrite render_EHost. simpl outside. simpl spec_fill.
    assert (H : render_list None (map jsx children) =
                if existsb outside children
                then Throw (Error "PostCardComponent.Title must be used within a PostCardComponent")
                else Ok (flat_map (spec_fill R0) children)).
    { induction IH as [|a Pa l _ IHl]; [reflexivity|].
      simpl map. simpl render_list. simpl existsb. simpl flat_map.
      rewrite (Pa R0). destruct (outside a); [reflexivity|].
      rewrite bind_Ok, IHl.
      destruct (existsb outside l); reflexivity. }
    rewrite H. destruct (existsb outside children); reflexivity.
  - simpl jsx. rewrite leaf_outside. destruct l; reflexivity.
  - simpl jsx. rewrite PostCardComponent_render.
    pose proof (render_inside (MCard R' children) R0) as H.
    simpl jsx in H. rewrite PostCardComponent_render in H.
    exact H.
  - simpl jsx. rewrite AntiPostCard_render. reflexivity.
Qed.

Lemma render_card ctx R children :
  render ctx (jsx (MCard R children)) =
  Ok [spec_card (flat_map (spec_fill R) children)].
Proof.
  pose proof (render_inside (MCard R children) R) as H.
  simpl jsx in *. rewrite PostCardComponent_render in *. exact H.
Qed.

Lemma DOM_eqb_refl d : DOM_eqb d d = true.
Proof.
  induction d as [s|n|tag cls children IH]; simpl.
  - apply String.eqb_refl.
  - apply Z.eqb_refl.
  - rewrite !String.eqb_refl. simpl.
    induction IH as [|a Pa l _ IHl]; [reflexivity|].
    now rewrite Pa, IHl.
Qed.

Lemma DOM_eqb_eq a : forall b, DOM_eqb a b = true -> a = b.
Proof.
  induction a as [s|n|tag cls children IH]; intros [t|m|tag' cls' children'] H;
    simpl in H; try discriminate.
  - apply String.eqb_eq in H. now subst.
  - apply Z.eqb_eq in H. now subst.
  - apply andb_prop in H as [H Hc]. apply andb_prop in H as [Ht Hk].
    apply String.eqb_eq in Ht, Hk. subst tag' cls'. f_equal.
    revert children' Hc.
    induction IH as [|a Pa l _ IHl]; intros [|b bs] Hc; try discriminate.
    + reflexivity.
    + apply andb_prop in Hc as [Hab Hl].
      f_equal; [now apply Pa|now apply IHl].
Qed.

Lemma author_shown_eq p :
  author_shown p = negb (truthy (anti_isOnProfilePage p)).
Proof.
  unfold author_shown, render_page, PostCardContext.
  simpl jsx. rewrite AntiPostCard_render.
  destruct p as [i t c [ui un] [[|]|] [|]]; cbn; rewrite ?String.eqb_refl;
    reflexivity.
Qed.

Lemma buttons_shown_eq p :
  buttons_shown p = shouldDisplayButtons p.
Proof.
  unfold buttons_shown, render_page, PostCardContext.
  simpl jsx. rewrite AntiPostCard_render.
  destruct p as [i t c [ui un] [[|]|] [|]]; reflexivity.
Qed.

End Rendering.

(** ** The usage guard and the leaves outside a provider *)

Section Guard.

(** C1 (amended): a leaf rendered with no provider above it throws the
    missing-provider error when it is one of the four leaves that call the
    guard (identifier, title, body, author); the actions leaf calls no
    guard and draws its two buttons there. *)
Theorem leaf_without_provider (l : Leaf) :
  render_page (MLeaf l) =
  match l with
  | Id | Title | Content | Author =>
      Throw (Error "PostCardComponent.Title must be used within a PostCardComponent")
  | Actions => Ok [DHost "div" "flex gap-3" [spec_read_more; spec_like]]
  end.
Proof.
  unfold render_page, PostCardContext. simpl jsx.
  rewrite leaf_outside. destruct l; reflexivity.
Qed.

(** C1 as stated fails at the actions leaf: outside every provider it
    returns its buttons and throws nothing. *)
Lemma actions_without_provider_renders :
  render_page (MLeaf Actions) =
  Ok [DHost "div" "flex gap-3"
        [DHost "button" "flex-1 bg-black text-white px-4 py-2 rounded-md font-medium hover:bg-gray-800 transition-colors duration-200"
           [DText "Read More"];
         DHost "button" "flex-1 border-2 border-black text-black px-4 py-2 rounded-md font-medium hover:bg-gray-100 transition-colors duration-200"
           [DText "Like"]]].
Proof. reflexivity. Qed.

(** C4: the guard returns the value of the nearest provider unchanged and
    throws when there is none; and whenever a render pass over a page built
    from the components throws, it is that throw: there is no provider
    above, a guard-calling leaf stands outside every card, and the error
    is the one the guard throws. *)
Theorem usage_guard_only_failure_path :
  (forall c, usePostCardContext (Some c) = Ok c) /\
  usePostCardContext None =
    Throw (Error "PostCardComponent.Title must be used within a PostCardComponent") /\
  (forall ctx m e,
      render ctx (jsx m) = Throw e ->
      ctx = None /\ outside m = true /\ usePostCardContext ctx = Throw e).
Proof.
  split; [reflexivity|]. split; [reflexivity|].
  intros [[R]|] m e H.
  - rewrite render_inside in H. discriminate.
  - rewrite (render_outside m (mkPost 0 "" "" (mkUser 0 "") None)) in H.
    destruct (outside m); [|discriminate].
    injection H as <-. repeat split.
Qed.

Lemma usage_guard_only_failure_path_witness :
  @None PostCardContextType = None /\ outside (MLeaf Title) = true /\
  usePostCardContext None =
    Throw (Error "PostCardComponent.Title must be used within a PostCardComponent").
Proof.
  exact (proj2 (proj2 usage_guard_only_failure_path) None (MLeaf Title)
           (Error "PostCardComponent.Title must be used within a PostCardComponent")
           eq_refl).
Defined.

(** C10: whenever the guard fails, the error carries the one fixed message,
    which names the title leaf, and every leaf that calls the guard in that
    context throws exactly this error, the identifier, body and author
    leaves included. *)
Theorem guard_message_names_title (ctx : ContextValue) (e : exn)
  (H : usePostCardContext ctx = Throw e) :
  e = Error "PostCardComponent.Title must be used within a PostCardComponent" /\
  forall l, l <> Actions ->
    render ctx (jsx (MLeaf l)) =
    Throw (Error "PostCardComponent.Title must be used within a PostCardComponent").
Proof.
  destruct ctx as [c|]; [discriminate|].
  injection H as <-. split; [reflexivity|].
  intros l Hl. simpl jsx. rewrite leaf_outside.
  destruct l; [reflexivity..|contradiction].
Qed.

Lemma guard_message_names_title_witness :
  Error "PostCardComponent.Title must be used within a PostCardComponent" =
  Error "PostCardComponent.Title must be used within a PostCardComponent" /\
  render None (jsx (MLeaf Id)) =
    Throw (Error "PostCardComponent.Title must be used within a PostCardComponent") /\
  render None (jsx (MLeaf Content)) =
    Throw (Error "PostCardComponent.Title must be used within a PostCardComponent") /\
  render None (jsx (MLeaf Author)) =
    Throw (Error "PostCardComponent.Title must be used within a PostCardComponent").
Proof.
  pose (W := guard_message_names_title None
               (Error "PostCardComponent.Title must be used within a PostCardComponent")
               eq_refl).
  split; [exact (proj1 W)|].
  split; [apply (proj2 W Id); discriminate|].
  split; [apply (proj2 W Content)|apply (proj2 W Author)]; discriminate.
Defined.

End Guard.

(** ** Leaves under a provider *)

Section Provider.

(** C2 as stated fails when the display-context flag is true: the author
    leaf is included and the card draws no fragment for it. *)
Lemma author_leaf_on_profile_page_draws_nothing :
  render_page (MCard (mkPost 1 "T" "B" (mkUser 1 "A") (Some true))
                 [MLeaf Author]) =
  Ok [DHost "div" "w-full bg-white rounded-lg shadow-md hover:shadow-lg transition-shadow duration-300 overflow-hidden border border-gray-300"
        []].
Proof. reflexivity. Qed.

(** C2 (amended): for every record [R] and every arrangement of children,
    the card renders the caller's markup with each leaf replaced by its own
    fragment of [R], whatever stands before or after it: the identifier,
    the title and the content for the first three leaves, and for the
    author leaf the line "By {name}" unless the flag is true, in which case
    it draws nothing. *)
Theorem card_fills_each_leaf_from_its_record
  (R : PostCardProps) (children : list Markup) :
  render_page (MCard R children) =
    Ok [spec_card (flat_map (spec_fill R) children)] /\
  (forall before l after,
      render_page (MCard R (before ++ MLeaf l :: after)) =
      Ok [spec_card (flat_map (spec_fill R) before ++ spec_fragment R l
                     ++ flat_map (spec_fill R) after)]) /\
  fragment_texts (render_page (MCard R [MLeaf Id])) = [number_text (id R)] /\
  fragment_texts (render_page (MCard R [MLeaf Title])) = [title R] /\
  fragment_texts (render_page (MCard R [MLeaf Content])) = [content R] /\
  fragment_texts (render_page (MCard R [MLeaf Author])) =
    (if truthy (isOnProfilePage R) then []
     else [("By " ++ name (user R))%string]).
Proof.
  split; [apply render_card|].
  split.
  { intros before l after. unfold render_page. rewrite render_card.
    rewrite flat_map_app. reflexivity. }
  unfold render_page. rewrite !render_card.
  cbn [flat_map spec_fill spec_fragment app spec_card fragment_texts
       root_children].
  repeat split.
  - cbn [spec_id_block map textContent]. now rewrite !append_empty_r.
  - simpl. now rewrite append_empty_r.
  - simpl. now rewrite append_empty_r.
  - destruct (truthy (isOnProfilePage R)); simpl; [reflexivity|].
    now rewrite !append_empty_r.
Qed.

End Provider.

Section Leaves.

(** C3: under a provider of record [R] whose flag is the boolean [b], the
    author leaf returns [null] and draws nothing when [b] is true, and
    draws the line whose text is "By {R.user.name}" when [b] is false. *)
Theorem author_leaf_follows_flag (R : PostCardProps) (b : bool)
  (H : isOnProfilePage R = Some b) :
  (b = true ->
     PostCardAuthor (Some {| post := R |}) = Ok ENull /\
     render (Some {| post := R |}) (jsx (MLeaf Author)) = Ok []) /\
  (b = false ->
     render (Some {| post := R |}) (jsx (MLeaf Author)) =
       Ok [DHost "p" "text-xs text-gray-600 font-medium mb-6"
             [DText "By ";
              DHost "span" "font-semibold text-black" [DText (name (user R))]]] /\
     fragment_texts (render_page (MCard R [MLeaf Author])) =
       [("By " ++ name (user R))%string]).
Proof.
  split; intros ->.
  - split.
    + unfold PostCardAuthor, usePostCardContext, useContext.
      rewrite bind_Ok. simpl post. rewrite H. reflexivity.
    + rewrite render_leaf_inside. simpl. rewrite H. reflexivity.
  - split.
    + rewrite render_leaf_inside. simpl. rewrite H. reflexivity.
    + unfold render_page. rewrite render_card. simpl. rewrite H. simpl.
      now rewrite !append_empty_r.
Qed.

Lemma author_leaf_follows_flag_witness :
  render (Some {| post := mkPost 3 "T" "B" (mkUser 3 "A") (Some true) |})
    (jsx (MLeaf Author)) = Ok [] /\
  fragment_texts
    (render_page (MCard (mkPost 3 "T" "B" (mkUser 3 "A") (Some false))
                    [MLeaf Author])) = ["By A"].
Proof.
  split.
  - exact (proj2 (proj1 (author_leaf_follows_flag
                           (mkPost 3 "T" "B" (mkUser 3 "A") (Some true))
                           true eq_refl) eq_refl)).
  - exact (proj2 (proj2 (author_leaf_follows_flag
                           (mkPost 3 "T" "B" (mkUser 3 "A") (Some false))
                           false eq_refl) eq_refl)).
Defined.

(** C9: when the record omits [isOnProfilePage], the author leaf draws the
    line "By {user.name}", exactly what it draws when the flag is false. *)
Theorem author_leaf_flag_omitted
  (i : Z) (t c : string) (u : User) :
  render (Some {| post := mkPost i t c u None |}) (jsx (MLeaf Author)) =
    Ok [DHost "p" "text-xs text-gray-600 font-medium mb-6"
          [DText "By "; DHost "span" "font-semibold text-black" [DText (name u)]]] /\
  render (Some {| post := mkPost i t c u None |}) (jsx (MLeaf Author)) =
    render (Some {| post := mkPost i t c u (Some false) |}) (jsx (MLeaf Author)) /\
  fragment_texts (render_page (MCard (mkPost i t c u None) [MLeaf Author])) =
    [("By " ++ name u)%string].
Proof.
  repeat split.
  unfold render_page. rewrite render_card. simpl.
  now rewrite !append_empty_r.
Qed.

(** C7: under any provider the actions leaf draws exactly its two static
    buttons, "Read More" and "Like"; no field of the record appears in
    what it draws. *)
Theorem actions_leaf_is_static (R : PostCardProps) :
  PostCardActions (Some {| post := R |}) = PostCardActions None /\
  render (Some {| post := R |}) (jsx (MLeaf Actions)) =
    Ok [DHost "div" "flex gap-3"
          [DHost "button" "flex-1 bg-black text-white px-4 py-2 rounded-md font-medium hover:bg-gray-800 transition-colors duration-200"
             [DText "Read More"];
           DHost "button" "flex-1 border-2 border-black text-black px-4 py-2 rounded-md font-medium hover:bg-gray-100 transition-colors duration-200"
             [DText "Like"]]] /\
  render_page (MCard R [MLeaf Actions]) = Ok [spec_card [spec_actions]] /\
  map textContent (root_children [spec_actions]) = ["Read More"; "Like"].
Proof. repeat split. Qed.

(** C6: the record with id 3, title "T", content "B", author "A" and the
    flag false, given the identifier, title, body and author leaves in that
    order, renders the texts "3", "T", "B", "By A" in that order. *)
Theorem concrete_card_renders_in_order :
  fragment_texts
    (render_page (MCard (mkPost 3 "T" "B" (mkUser 3 "A") (Some false))
                    [MLeaf Id; MLeaf Title; MLeaf Content; MLeaf Author])) =
  ["3"; "T"; "B"; "By A"].
Proof. reflexivity. Qed.

End Leaves.

(** ** Sibling cards *)

Section Isolation.

(** C5: a card renders the same subtree whatever card stands beside it.
    The subtree [o1] of the card of [R1] is the one it renders alone, and
    it is fixed before the sibling's record [R2] and children are chosen;
    the same holds of the sibling, on either side.  With an identifier leaf
    in each card the two texts are the two identifiers, in the cards'
    order. *)
Theorem sibling_cards_are_isolated
  (ctx : ContextValue) (tag cls : string)
  (R1 : PostCardProps) (ch1 : list Markup) :
  (exists o1,
     render_page (MCard R1 ch1) = Ok [o1] /\
     o1 = spec_card (flat_map (spec_fill R1) ch1) /\
     forall R2 ch2,
     exists o2,
       render_page (MCard R2 ch2) = Ok [o2] /\
       render ctx (jsx (MHost tag cls [MCard R1 ch1; MCard R2 ch2])) =
         Ok [DHost tag cls [o1; o2]] /\
       render ctx (jsx (MHost tag cls [MCard R2 ch2; MCard R1 ch1])) =
         Ok [DHost tag cls [o2; o1]]) /\
  (forall R2,
     fragment_texts
       (render ctx (jsx (MHost tag cls [MCard R1 [MLeaf Id];
                                        MCard R2 [MLeaf Id]]))) =
     [number_text (id R1); number_text (id R2)]).
Proof.
  assert (two : forall Ra cha Rb chb,
             render ctx (jsx (MHost tag cls [MCard Ra cha; MCard Rb chb])) =
             Ok [DHost tag cls [spec_card (flat_map (spec_fill Ra) cha);
                                spec_card (flat_map (spec_fill Rb) chb)]]).
  { intros Ra cha Rb chb.
    change (jsx (MHost tag cls [MCard Ra cha; MCard Rb chb]))
      with (EHost tag cls [jsx (MCard Ra cha); jsx (MCard Rb chb)]).
    rewrite render_EHost.
    change (render_list ctx [jsx (MCard Ra cha); jsx (MCard Rb chb)])
      with (o <- render ctx (jsx (MCard Ra cha)) ;;
            os <- render_list ctx [jsx (MCard Rb chb)] ;; Ok (o ++ os)).
    rewrite render_list_one, !render_card. reflexivity. }
  split.
  - exists (spec_card (flat_map (spec_fill R1) ch1)).
    split; [apply render_card|]. split; [reflexivity|].
    intros R2 ch2.
    exists (spec_card (flat_map (spec_fill R2) ch2)).
    split; [apply render_card|].
    split; apply two.
  - intros R2. rewrite two.
    cbn [flat_map spec_fill spec_fragment app spec_card root_children map
         spec_id_block textContent fragment_texts].
    now rewrite !append_empty_r.
Qed.

End Isolation.

(** ** The flag-driven counter-example *)

Section Anti.

(** C8 as stated fails for a record that omits [isOnProfilePage]: the
    author line is drawn although the flag is not false. *)
Lemma anti_card_flag_omitted_shows_author :
  anti_isOnProfilePage (mkAntiPost 1 "T" "B" (mkUser 1 "A") None false)
    = None /\
  author_shown (mkAntiPost 1 "T" "B" (mkUser 1 "A") None false) = true /\
  render_page (MAnti (mkAntiPost 1 "T" "B" (mkUser 1 "A") None false)) =
  Ok [DHost "div" "w-full bg-white rounded-lg shadow-md hover:shadow-lg transition-shadow duration-300 overflow-hidden border border-gray-300"
        [DHost "div" "bg-gray-200 h-32 flex items-center justify-center"
           [DHost "span" "text-black font-bold text-center block" [DNum 1]];
         DHost "div" "p-6"
           [DHost "h2" "text-2xl font-bold text-black mb-2" [DText "T"];
            DHost "p" "text-gray-700 text-sm mb-4 leading-relaxed" [DText "B"];
            DHost "p" "text-xs text-gray-600 font-medium mb-6"
              [DText "By ";
               DHost "span" "font-semibold text-black" [DText "A"]]]]].
Proof. repeat split. Qed.

(** C8 (amended): in the flag-driven card the author line is drawn iff
    [isOnProfilePage] is not true (false or omitted), each of the two
    buttons is drawn iff [shouldDisplayButtons] is true, and neither flag
    changes the other section. *)
Theorem anti_card_flags_are_orthogonal (p : AntiPostCardProps) :
  render_page (MAnti p) = Ok [spec_anti p] /\
  (author_shown p = true <-> anti_isOnProfilePage p <> Some true) /\
  (buttons_shown p = true <-> shouldDisplayButtons p = true) /\
  shown spec_read_more (render_page (MAnti p)) = shouldDisplayButtons p /\
  shown spec_like (render_page (MAnti p)) = shouldDisplayButtons p /\
  (forall b, author_shown (with_shouldDisplayButtons b p) = author_shown p) /\
  (forall f, buttons_shown (with_isOnProfilePage f p) = buttons_shown p).
Proof.
  split; [apply AntiPostCard_render|].
  split.
  { rewrite author_shown_eq.
    destruct (anti_isOnProfilePage p) as [[|]|]; simpl; split;
      congruence. }
  split; [now rewrite buttons_shown_eq|].
  split.
  { unfold render_page, PostCardContext. simpl jsx.
    rewrite AntiPostCard_render.
    destruct p as [i t c [ui un] [[|]|] [|]]; reflexivity. }
  split.
  { unfold render_page, PostCardContext. simpl jsx.
    rewrite AntiPostCard_render.
    destruct p as [i t c [ui un] [[|]|] [|]]; reflexivity. }
  split.
  - intro b. now rewrite !author_shown_eq.
  - intro f. now rewrite !buttons_shown_eq.
Qed.

End Anti.

(** ** The example page *)

Section Page.

(** The page of the example application renders without a throw; its two
    cards show their own identifiers 3 and 4. *)
Example App_renders :
  exists out,
    render_page App = Ok out /\
    shown (spec_id_block 3) (Ok out) = true /\
    shown (spec_id_block 4) (Ok out) = true /\
    outside App = false.
Proof. eexists. repeat split; reflexivity. Qed.

End Page.

(** ** Further properties of the card and its callers *)

Section Composition.

Lemma occurs_DHost x tag cls children :
  occurs x (DHost tag cls children) =
  DOM_eqb x (DHost tag cls children) || existsb (occurs x) children.
Proof. reflexivity. Qed.

Lemma occurs_refl x : occurs x x = true.
Proof.
  destruct x; cbn [occurs]; now rewrite DOM_eqb_refl.
Qed.

Lemma existsb_flat_map {A B : Type} (f : B -> bool) (g : A -> list B) l :
  existsb f (flat_map g l) = existsb (fun a => existsb f (g a)) l.
Proof.
  induction l as [|a l IH]; simpl; [reflexivity|].
  now rewrite existsb_app, IH.
Qed.

Lemma fill_leaves R ls :
  flat_map (spec_fill R) (map MLeaf ls) = flat_map (spec_fragment R) ls.
Proof.
  induction ls as [|l ls IH]; simpl; [reflexivity|now rewrite IH].
Qed.

Lemma shown_in_card x R ls :
  shown x (render_page (MCard R (map MLeaf ls))) =
  DOM_eqb x (spec_card (flat_map (spec_fragment R) ls)) ||
  existsb (fun l => existsb (occurs x) (spec_fragment R l)) ls.
Proof.
  unfold render_page. rewrite render_card, fill_leaves.
  unfold shown, occurs_in, existsb at 1.
  unfold spec_card at 1. rewrite occurs_DHost, existsb_flat_map.
  now rewrite orb_false_r.
Qed.

(** A page with a guard-calling leaf outside every card throws as a whole,
    however deep in host markup the leaf stands and whatever else the page
    holds. *)
Theorem outside_leaf_aborts_page (m : Markup) (H : outside m = true) :
  render_page m =
  Throw (Error "PostCardComponent.Title must be used within a PostCardComponent").
Proof.
  unfold render_page, PostCardContext.
  rewrite (render_outside m (mkPost 0 "" "" (mkUser 0 "") None)), H.
  reflexivity.
Qed.

Lemma outside_leaf_aborts_page_witness :
  render_page
    (MHost "main" ""
       [MText "posts";
        MCard (mkPost 1 "T" "B" (mkUser 1 "A") None) [MLeaf Title];
        MHost "div" "p-6" [MAnti (mkAntiPost 2 "U" "C" (mkUser 2 "D") None true);
                           MLeaf Content]]) =
  Throw (Error "PostCardComponent.Title must be used within a PostCardComponent").
Proof. apply outside_leaf_aborts_page. reflexivity. Defined.

(** A nested card shadows the outer one: what stands inside it is drawn
    from its own record exactly as if the card stood alone, while the
    leaves around it still read the outer record. *)
Theorem nested_card_shadows_outer
  (ctx : ContextValue) (Ro Ri : PostCardProps)
  (before inner after : list Markup) :
  render ctx (jsx (MCard Ro (before ++ MCard Ri inner :: after))) =
    Ok [spec_card (flat_map (spec_fill Ro) before
                   ++ spec_card (flat_map (spec_fill Ri) inner)
                   :: flat_map (spec_fill Ro) after)] /\
  render (Some {| post := Ro |}) (jsx (MCard Ri inner)) =
    render_page (MCard Ri inner) /\
  fragment_texts
    (render ctx (jsx (MCard Ro [MLeaf Title; MCard Ri [MLeaf Title];
                                MLeaf Title]))) =
    [title Ro; title Ri; title Ro].
Proof.
  split; [|split].
  - rewrite render_card, flat_map_app. reflexivity.
  - unfold render_page. now rewrite !render_card.
  - rewrite render_card. simpl. now rewrite !append_empty_r.
Qed.

(** Any component of the caller's own that calls the hook under a card
    receives exactly that card's record, and the hook does not throw
    there, whatever context surrounds the card and also when the component
    is wrapped in host markup. *)
Theorem consumer_reads_card_record
  (ctx : ContextValue) (R : PostCardProps)
  (k : PostCardContextType -> Element) (tag cls : string) :
  render ctx (EComp (PostCardComponent [EComp (consumer k)] R)) =
    (kids <- render (Some {| post := R |}) (k {| post := R |}) ;;
     Ok [spec_card kids]) /\
  render ctx
    (EComp (PostCardComponent [EHost tag cls [EComp (consumer k)]] R)) =
    (kids <- render (Some {| post := R |}) (k {| post := R |}) ;;
     Ok [spec_card [DHost tag cls kids]]).
Proof.
  split.
  - rewrite PostCardComponent_render, render_list_one, render_EComp.
    unfold consumer, usePostCardContext, useContext. rewrite !bind_Ok.
    reflexivity.
  - rewrite PostCardComponent_render, render_list_one, render_EHost.
    rewrite render_list_one, render_EComp.
    unfold consumer, usePostCardContext, useContext. rewrite !bind_Ok.
    destruct (render _ (k _)); reflexivity.
Qed.

(** A [PostCardContext.Provider] whose value is [undefined] does not
    satisfy the guard: a guard-calling leaf under it throws, even when a
    card stands further up. *)
Theorem undefined_provider_value_fails_guard
  (ctx : ContextValue) (R : PostCardProps) (l : Leaf) (H : l <> Actions) :
  render ctx (EProvider None [EComp (leaf l)]) =
    Throw (Error "PostCardComponent.Title must be used within a PostCardComponent") /\
  render ctx (EComp (PostCardComponent [EProvider None [EComp (leaf l)]] R)) =
    Throw (Error "PostCardComponent.Title must be used within a PostCardComponent").
Proof.
  assert (E : render_list None [EComp (leaf l)] =
              Throw (Error "PostCardComponent.Title must be used within a PostCardComponent")).
  { rewrite render_list_one, leaf_outside.
    destruct l; [reflexivity..|contradiction]. }
  split.
  - now rewrite render_EProvider.
  - rewrite PostCardComponent_render, render_list_one, render_EProvider, E.
    reflexivity.
Qed.

Lemma undefined_provider_value_fails_guard_witness :
  render None
    (EComp (PostCardComponent [EProvider None [EComp (leaf Title)]]
              (mkPost 1 "T" "B" (mkUser 1 "A") None))) =
  Throw (Error "PostCardComponent.Title must be used within a PostCardComponent").
Proof.
  apply (undefined_provider_value_fails_guard None
           (mkPost 1 "T" "B" (mkUser 1 "A") None) Title).
  discriminate.
Defined.

(** The card given the identifier and the padded block of title, content,
    author and (optionally) actions renders the very document the
    flag-driven card renders for the same post, [shouldDisplayButtons]
    standing for the inclusion of the actions leaf, both whatever context
    surrounds them; and every flag-driven card is such an arrangement of
    the compound card. *)
Theorem full_card_matches_anti_card (ctx ctx' : ContextValue) :
  (forall R buttons,
      render ctx (jsx (full_card R buttons)) =
      render ctx' (jsx (MAnti (as_anti_post R buttons)))) /\
  (forall p,
      render ctx' (jsx (MAnti p)) =
      render ctx (jsx (full_card
                         (mkPost (anti_id p) (anti_title p) (anti_content p)
                            (anti_user p) (anti_isOnProfilePage p))
                         (shouldDisplayButtons p)))).
Proof.
  assert (E : forall R buttons,
             render ctx (jsx (full_card R buttons)) =
             render ctx' (jsx (MAnti (as_anti_post R buttons)))).
  { intros R buttons. unfold full_card. rewrite render_card.
    simpl jsx. rewrite AntiPostCard_render.
    unfold spec_anti, as_anti_post. simpl.
    destruct (truthy (isOnProfilePage R)), buttons; reflexivity. }
  split; [exact E|].
  intro p. rewrite E. destruct p; reflexivity.
Qed.

(** The two buttons are in a card of leaves exactly when the caller
    included the actions leaf: leaving it out leaves no trace of them. *)
Theorem buttons_follow_actions_leaf (R : PostCardProps) (ls : list Leaf) :
  shown spec_read_more (render_page (MCard R (map MLeaf ls))) =
    includes Actions ls /\
  shown spec_like (render_page (MCard R (map MLeaf ls))) =
    includes Actions ls.
Proof.
  assert (F : forall x, x = spec_read_more \/ x = spec_like ->
              forall l, existsb (occurs x) (spec_fragment R l) =
                        Leaf_eqb Actions l).
  { intros x [-> | ->] l; destruct l; try reflexivity;
      cbn [spec_fragment]; destruct (truthy (isOnProfilePage R));
      reflexivity. }
  split; rewrite shown_in_card; unfold includes;
    (replace (DOM_eqb _ (spec_card _)) with false by reflexivity);
    simpl orb;
    (induction ls as [|l ls IH]; [reflexivity|]);
    simpl existsb; rewrite IH, F; auto.
Qed.

(** The author line of the card's record is in a card of leaves exactly
    when the caller included the author leaf and the flag is not true. *)
Theorem author_line_follows_author_leaf (R : PostCardProps) (ls : list Leaf) :
  shown (spec_author_line (user R)) (render_page (MCard R (map MLeaf ls))) =
  includes Author ls && negb (truthy (isOnProfilePage R)).
Proof.
  rewrite shown_in_card. unfold includes.
  replace (DOM_eqb _ (spec_card _)) with false by reflexivity.
  simpl orb.
  induction ls as [|l ls IH]; [reflexivity|].
  simpl existsb. rewrite IH, andb_orb_distrib_l. f_equal.
  destruct l; try reflexivity.
  cbn [spec_fragment Leaf_eqb andb].
  destruct (truthy (isOnProfilePage R)); [reflexivity|].
  cbn [existsb negb]. now rewrite occurs_refl.
Qed.


(** Children compose: a card over [a ++ b] holds what the card over [a]
    holds followed by what the card over [b] holds, and a card with no
    children is an empty root. *)
Theorem card_children_compose (ctx : ContextValue) (R : PostCardProps)
  (a b : list Markup) :
  exists ka kb,
    render ctx (jsx (MCard R a)) = Ok [spec_card ka] /\
    render ctx (jsx (MCard R b)) = Ok [spec_card kb] /\
    render ctx (jsx (MCard R (a ++ b))) = Ok [spec_card (ka ++ kb)] /\
    render ctx (jsx (MCard R [])) = Ok [spec_card []].
Proof.
  exists (flat_map (spec_fill R) a), (flat_map (spec_fill R) b).
  rewrite !render_card, flat_map_app. repeat split.
Qed.

(** Reordering the children of a card reorders what it holds and changes
    nothing else. *)
Theorem card_children_permute (ctx : ContextValue) (R : PostCardProps)
  (a b : list Markup) (H : Permutation a b) :
  exists ka kb,
    render ctx (jsx (MCard R a)) = Ok [spec_card ka] /\
    render ctx (jsx (MCard R b)) = Ok [spec_card kb] /\
    Permutation ka kb.
Proof.
  exists (flat_map (spec_fill R) a), (flat_map (spec_fill R) b).
  rewrite !render_card. repeat split.
  now apply Permutation_flat_map.
Qed.

Lemma card_children_permute_witness :
  exists ka kb,
    render None (jsx (MCard (mkPost 3 "T" "B" (mkUser 3 "A") None)
                        [MLeaf Title; MLeaf Id])) = Ok [spec_card ka] /\
    render None (jsx (MCard (mkPost 3 "T" "B" (mkUser 3 "A") None)
                        [MLeaf Id; MLeaf Title])) = Ok [spec_card kb] /\
    Permutation ka kb.
Proof.
  apply (card_children_permute None (mkPost 3 "T" "B" (mkUser 3 "A") None)
           [MLeaf Title; MLeaf Id] [MLeaf Id; MLeaf Title]).
  apply perm_swap.
Defined.

End Composition.
